(** * garden.zbarcam: the frame-detection pipeline of the ZBarCam widget

    Two variants of the widget live in the repository:

    - [src/zbarcam.py]: the zbar-based widget.  A worker thread is
      started per accepted frame; results come back to the main thread
      through [@mainthread].  Embedded in [Module ZBarThread].
    - [src/zbarcam/zbarcam.py]: the pyzbar-based widget.  Decoding runs
      synchronously inside the [on_texture] callback.  Embedded in
      [Module ZBarSync].

    The camera, Pillow, zbar and pyzbar are external collaborators.
    Pillow is modelled to the extent the two files call it ([Module PIL]);
    the decoders are parameters of the embedding. *)

From Stdlib Require Import ZArith Lia Bool Ascii String.
From Stdlib.Strings Require Import Byte.
From stdpp Require Import base list strings gmap.

Open Scope Z_scope.

(** ** Python values shared by both variants *)

Definition bytes := list byte.

(** Python exceptions raised on the paths the widget exercises. *)
Inductive Exc : Type :=
| ValueError (msg : string).

Inductive result (A : Type) : Type :=
| Ok (a : A)
| Raise (e : Exc).
Arguments Ok {A} a.
Arguments Raise {A} e.

(** [str.upper()] on the ASCII range, which is what format tags use. *)
Definition upper_ascii (c : ascii) : ascii :=
  let n := nat_of_ascii c in
  if ((97 <=? n) && (n <=? 122))%nat then ascii_of_nat (n - 32) else c.

Fixpoint upper (s : string) : string :=
  match s with
  | EmptyString => EmptyString
  | String c s' => String (upper_ascii c) (upper s')
  end.

(** A Kivy texture as the widget reads it: [size], [colorfmt], [pixels]. *)
Record Texture : Type := mkTexture {
  size : Z * Z;
  colorfmt : string;
  pixels : bytes
}.




(** ** Pillow, as far as the widget calls it

    [PIL.Image.frombytes(mode, size, data)] with the default raw decoder,
    [Image.convert('L')], [Image.size] and [Image.tobytes()].  Pillow is
    an external library: the model covers the 8-bit modes [L], [LA],
    [RGB] and [RGBA] and follows Pillow's raw decoder, which reads
    [width * height * bands] bytes, raises [ValueError] when fewer are
    supplied and leaves any surplus unread.  Mode strings outside the
    table (among them every upper-cased Kivy format other than RGB and
    RGBA) are reported as unrecognised; the properties below that rest
    on a rejected mode are stated for Kivy's formats only. *)
Module PIL.

Inductive Mode : Type := L | LA | RGB | RGBA.

Definition mode_of_string (s : string) : option Mode :=
  if String.eqb s "L" then Some L
  else if String.eqb s "LA" then Some LA
  else if String.eqb s "RGB" then Some RGB
  else if String.eqb s "RGBA" then Some RGBA
  else None.

Definition bands (m : Mode) : Z :=
  match m with L => 1 | LA => 2 | RGB => 3 | RGBA => 4 end.

Record Image : Type := mkImage {
  mode : Mode;
  im_size : Z * Z;
  im : bytes
}.

Definition frombytes (mode : string) (size : Z * Z) (data : bytes)
  : result Image :=
  let '(w, h) := size in
  if (w <? 0) || (h <? 0)
  then Raise (ValueError "Width and height must be >= 0")
  else
    match mode_of_string mode with
    | None => Raise (ValueError "unrecognized image mode")
    | Some m =>
        let need := w * h * bands m in
        if Z.of_nat (length data) <? need
        then Raise (ValueError "not enough image data")
        else Ok (mkImage m size (take (Z.to_nat need) data))
    end.

Definition byte_of_Z (z : Z) : byte :=
  match Byte.of_N (Z.to_N z) with Some b => b | None => Byte.x00 end.

Definition Z_of_byte (b : byte) : Z := Z.of_N (Byte.to_N b).

(** ITU-R 601-2 luma transform: L = R * 299/1000 + G * 587/1000 + B * 114/1000. *)
Definition luma (r g b : byte) : byte :=
  byte_of_Z ((Z_of_byte r * 299 + Z_of_byte g * 587 + Z_of_byte b * 114) / 1000).

Fixpoint la_to_l (d : bytes) : bytes :=
  match d with
  | l :: _ :: d' => l :: la_to_l d'
  | _ => []
  end.

Fixpoint rgb_to_l (d : bytes) : bytes :=
  match d with
  | r :: g :: b :: d' => luma r g b :: rgb_to_l d'
  | _ => []
  end.

Fixpoint rgba_to_l (d : bytes) : bytes :=
  match d with
  | r :: g :: b :: _ :: d' => luma r g b :: rgba_to_l d'
  | _ => []
  end.

(** [image.convert('L')] *)
Definition convert_L (i : Image) : Image :=
  mkImage L (im_size i)
    match mode i with
    | L => im i
    | LA => la_to_l (im i)
    | RGB => rgb_to_l (im i)
    | RGBA => rgba_to_l (im i)
    end.

(** [image.tobytes()] *)
Definition tobytes (i : Image) : bytes := im i.

End PIL.

(** ** The zbar Python binding, as far as [src/zbarcam.py] reads it *)
Module zbar.

(** The attributes of a [zbar.Symbol] the widget copies. *)
Record Symbol : Type := mkSymbol {
  type : Z;
  data : string;
  quality : Z;
  count : Z
}.

End zbar.

(** * [src/zbarcam.py]: the threaded, zbar-based widget *)
Module ZBarThread.

(** [Qrcode = namedtuple('Qrcode', ['type', 'data', 'bounds', 'quality', 'count'])].
    The source never builds a [bounds] other than [None]; the payload
    type of the option is nominal. *)
Record Qrcode : Type := mkQrcode {
  type : Z;
  data : string;
  bounds : option (list (Z * Z));
  quality : Z;
  count : Z
}.

(** The execution context a statement runs on. *)
Inductive Context : Type := MainThread | WorkerThread.

(** A [threading.Thread] whose target is [_detect_qrcode_frame]:
    the keyword arguments captured at creation, and [is_alive()]. *)
Record Thread : Type := mkThread {
  kwargs : Texture;
  alive : bool
}.

Section Widget.

(** [zbar.ImageScanner]: its internal state, and
    [zbar.Image(width, height, "Y800", raw); scanner.scan(zimage)],
    which returns the count reported by [scan] together with the
    symbols that iterating [zimage] yields afterwards, or raises. *)
Context {Scanner : Type}.
Variable scan : Scanner -> Z -> Z -> bytes ->
                result (Z * list zbar.Symbol) * Scanner.

(** The widget together with the runtime objects it shares with the
    worker threads and the Kivy clock.
    - [resolution] and [symbols]: the two [ListProperty] fields;
    - [_detect_qrcode_frame_thread]: [None] or a reference into [threads];
    - [play]: [self._camera.play];
    - [scanner]: [self.scanner];
    - [threads]: every thread object created so far;
    - [clock]: the calls of [_update_symbols] that [@mainthread] has
      scheduled and the main loop has not run yet, oldest first;
    - [writes]: every assignment to [symbols] so far, newest first,
      with the context that performed it. *)
Record World : Type := mkWorld {
  resolution : list Z;
  symbols : list Qrcode;
  _detect_qrcode_frame_thread : option nat;
  play : bool;
  scanner : Scanner;
  threads : list Thread;
  clock : list (list Qrcode);
  writes : list (Context * list Qrcode)
}.

(** [__init__]: no thread yet, camera created with [play=True]. *)
Definition init (sc : Scanner) : World :=
  mkWorld [640; 480] [] None true sc [] [] [].

Definition set_play (b : bool) (w : World) : World :=
  mkWorld (resolution w) (symbols w) (_detect_qrcode_frame_thread w) b (scanner w)
          (threads w) (clock w) (writes w).

Definition set_scanner (sc : Scanner) (w : World) : World :=
  mkWorld (resolution w) (symbols w) (_detect_qrcode_frame_thread w) (play w) sc
          (threads w) (clock w) (writes w).

Definition set_threads (ts : list Thread) (w : World) : World :=
  mkWorld (resolution w) (symbols w) (_detect_qrcode_frame_thread w) (play w) (scanner w)
          ts (clock w) (writes w).

Definition set_clock (c : list (list Qrcode)) (w : World) : World :=
  mkWorld (resolution w) (symbols w) (_detect_qrcode_frame_thread w) (play w) (scanner w)
          (threads w) c (writes w).

(** [self.symbols = v], executed on context [ctx]. *)
Definition assign_symbols (ctx : Context) (v : list Qrcode) (w : World) : World :=
  mkWorld (resolution w) v (_detect_qrcode_frame_thread w) (play w) (scanner w)
          (threads w) (clock w) ((ctx, v) :: writes w).

(** [thread.is_alive()] for the thread referenced by [i]. *)
Definition is_alive (w : World) (i : nat) : bool :=
  match threads w !! i with
  | Some t => alive t
  | None => false
  end.

(** [threading.Thread(target=self._detect_qrcode_frame, kwargs=kwargs)],
    stored in the field, then [.start()]. *)
Definition start_thread (kw : Texture) (w : World) : World :=
  mkWorld (resolution w) (symbols w) (Some (length (threads w))) (play w) (scanner w)
          (threads w ++ [mkThread kw true]) (clock w) (writes w).

(** [_on_texture(self, instance)], lines 71-89. *)
Definition _on_texture (instance : Texture) (w : World) : World :=
  let busy :=
    match _detect_qrcode_frame_thread w with
    | Some i => is_alive w i
    | None => false
    end in
  if busy then w else start_thread instance w.

(** The body of [_update_symbols], lines 92-97, run on [ctx]. *)
Definition _update_symbols_body (ctx : Context) (syms : list Qrcode) (w : World)
  : World :=
  assign_symbols ctx syms w.

(** [_update_symbols] as decorated by [@mainthread]: the call only
    schedules the body on the Kivy clock. *)
Definition _update_symbols (syms : list Qrcode) (w : World) : World :=
  set_clock (clock w ++ [syms]) w.

(** Lines 100-106: the frame as a greyscale buffer with its dimensions. *)
Definition greyscale (texture : Texture) : result (Z * Z * bytes) :=
  let size := size texture in
  let fmt := upper (colorfmt texture) in
  match PIL.frombytes fmt size (pixels texture) with
  | Raise e => Raise e
  | Ok pil_image =>
      let pil_image := PIL.convert_L pil_image in
      let '(width, height) := PIL.im_size pil_image in
      let raw_image := PIL.tobytes pil_image in
      Ok (width, height, raw_image)
  end.

(** Lines 115-120. *)
Definition qrcode_of (symbol : zbar.Symbol) : Qrcode :=
  mkQrcode (zbar.type symbol) (zbar.data symbol) None
           (zbar.quality symbol) (zbar.count symbol).

(** Lines 113-121: the loop that appends one [Qrcode] per symbol. *)
Definition collect (zimage : list zbar.Symbol) : list Qrcode :=
  fold_left (fun symbols symbol => symbols ++ [qrcode_of symbol]) zimage [].

(** [_detect_qrcode_frame], lines 99-122, run on context [ctx].  An
    exception is not caught anywhere: the thread ends there. *)
Definition _detect_qrcode_frame (ctx : Context) (texture : Texture) (w : World)
  : World :=
  match greyscale texture with
  | Raise _ => w
  | Ok (width, height, raw_image) =>
      let '(r, sc) := scan (scanner w) width height raw_image in
      let w := set_scanner sc w in
      match r with
      | Raise _ => w
      | Ok (result, zimage) =>
          if result =? 0
          then assign_symbols ctx [] w
          else _update_symbols (collect zimage) w
      end
  end.

(** [start] and [stop], lines 124-128. *)
Definition start (w : World) : World := set_play true w.
Definition stop (w : World) : World := set_play false w.

(** *** Scheduling

    What can happen to the widget, one event at a time:
    the camera delivers a frame to [_on_texture] on the main thread;
    a worker thread runs its target to the end; the main loop runs
    the oldest scheduled callback; the application calls [start] or
    [stop]. *)
Inductive Event : Type :=
| FrameArrives (instance : Texture)
| ThreadRuns (i : nat)
| ClockTick
| Start
| Stop.

Definition run_thread (i : nat) (w : World) : World :=
  match threads w !! i with
  | Some t =>
      if alive t
      then
        let w := _detect_qrcode_frame WorkerThread (kwargs t) w in
        set_threads (<[i := mkThread (kwargs t) false]> (threads w)) w
      else w
  | None => w
  end.

Definition clock_tick (w : World) : World :=
  match clock w with
  | [] => w
  | syms :: rest => _update_symbols_body MainThread syms (set_clock rest w)
  end.

Definition step (e : Event) (w : World) : World :=
  match e with
  | FrameArrives instance => _on_texture instance w
  | ThreadRuns i => run_thread i w
  | ClockTick => clock_tick w
  | Start => start w
  | Stop => stop w
  end.

Definition run (tr : list Event) (w : World) : World :=
  fold_left (fun w e => step e w) tr w.

(** The number of decodes in flight: threads that are alive. *)
Definition in_flight (w : World) : nat :=
  length (filter (fun t => alive t = true) (threads w)).

(** Every thread that is alive is the one the widget's field refers to. *)
Definition owned (w : World) : Prop :=
  forall i t, threads w !! i = Some t -> alive t = true ->
              _detect_qrcode_frame_thread w = Some i.

(** A symbol that some call of the scanner returns. *)
Definition scanned (symbol : zbar.Symbol) : Prop :=
  exists st width height raw n zimage st',
    scan st width height raw = (Ok (n, zimage), st') /\ symbol ∈ zimage.

(** A record built from such a symbol by [qrcode_of]. *)
Definition from_scanner (q : Qrcode) : Prop :=
  exists symbol, scanned symbol /\ q = qrcode_of symbol.

(** Everything published or waiting on the clock was built from
    symbols the scanner returned. *)
Definition records_ok (w : World) : Prop :=
  Forall from_scanner (symbols w) /\
  Forall (Forall from_scanner) (clock w).

(** Frames for which a decode was started, and frames that were
    dropped, along a trace: a frame starts a decode when the thread
    pool grows. *)
Definition starts_decode (e : Event) (w : World) : bool :=
  match e with
  | FrameArrives _ => (length (threads w) <? length (threads (step e w)))%nat
  | _ => false
  end.

Definition is_dropped (e : Event) (w : World) : bool :=
  match e with
  | FrameArrives _ => (length (threads (step e w)) =? length (threads w))%nat
  | _ => false
  end.

Fixpoint decodes_started (tr : list Event) (w : World) : nat :=
  match tr with
  | [] => 0
  | e :: tr' =>
      ((if starts_decode e w then 1 else 0) + decodes_started tr' (step e w))%nat
  end.

Fixpoint frames_dropped (tr : list Event) (w : World) : nat :=
  match tr with
  | [] => 0
  | e :: tr' =>
      ((if is_dropped e w then 1 else 0) + frames_dropped tr' (step e w))%nat
  end.

End Widget.

End ZBarThread.

(** ** pyzbar, as far as [src/zbarcam/zbarcam.py] reads it *)
Module pyzbar.

(** [pyzbar.ZBarSymbol], the symbologies that can be enabled. *)
Inductive ZBarSymbol : Type :=
| NONE | PARTIAL | EAN8 | UPCE | ISBN10 | UPCA | EAN13 | ISBN13
| I25 | CODE39 | PDF417 | QRCODE | CODE128.

#[global] Instance ZBarSymbol_eq_dec : EqDecision ZBarSymbol.
Proof. solve_decision. Defined.

(** [set(pyzbar.ZBarSymbol)] *)
Definition all_symbols : list ZBarSymbol :=
  [NONE; PARTIAL; EAN8; UPCE; ISBN10; UPCA; EAN13; ISBN13;
   I25; CODE39; PDF417; QRCODE; CODE128].

(** The attributes of a [Decoded] result the widget copies. *)
Record Decoded : Type := mkDecoded {
  type : string;
  data : string
}.

End pyzbar.

(** * [src/zbarcam/zbarcam.py]: the synchronous, pyzbar-based widget *)
Module ZBarSync.

(** [Symbol = namedtuple('Symbol', ['type', 'data'])] *)
Record Symbol : Type := mkSymbol {
  type : string;
  data : string
}.

(** The widget's fields; [play] is [self.xcamera.play]. *)
Record ZBarCam : Type := mkZBarCam {
  resolution : list Z;
  symbols : list Symbol;
  code_types : list pyzbar.ZBarSymbol;
  play : bool
}.

Definition set_symbols (v : list Symbol) (self : ZBarCam) : ZBarCam :=
  mkZBarCam (resolution self) v (code_types self) (play self).

Definition set_play (b : bool) (self : ZBarCam) : ZBarCam :=
  mkZBarCam (resolution self) (symbols self) (code_types self) b.

Section Widget.

(** [kivy.utils.platform] *)
Variable platform : string.

(** [pyzbar.decode(pil_image, symbols=code_types)]: the list of codes
    or an exception, and whatever state the decoder keeps between
    calls. *)
Context {Decoder : Type}.
Variable decode : Decoder -> PIL.Image -> list pyzbar.ZBarSymbol ->
                  result (list pyzbar.Decoded) * Decoder.

(** Lines 94-99: the mode handed to [PIL.Image.frombytes]. *)
Definition pil_mode (colorfmt : string) : string :=
  let fmt := upper colorfmt in
  if String.eqb platform "ios" && String.eqb fmt "BGRA" then "RGBA"%string else fmt.

(** Lines 104-105. *)
Definition symbol_of (code : pyzbar.Decoded) : Symbol :=
  mkSymbol (pyzbar.type code) (pyzbar.data code).

(** Lines 101-105: the loop that appends one [Symbol] per code. *)
Definition collect (codes : list pyzbar.Decoded) : list Symbol :=
  fold_left (fun symbols code => symbols ++ [symbol_of code]) codes [].

(** [_detect_qrcode_frame(texture, code_types)], lines 90-106. *)
Definition _detect_qrcode_frame (texture : Texture)
    (code_types : list pyzbar.ZBarSymbol) (d : Decoder)
  : result (list Symbol) * Decoder :=
  let image_data := pixels texture in
  let size := size texture in
  let fmt := pil_mode (colorfmt texture) in
  match PIL.frombytes fmt size image_data with
  | Raise e => (Raise e, d)
  | Ok pil_image =>
      let '(r, d) := decode d pil_image code_types in
      match r with
      | Raise e => (Raise e, d)
      | Ok codes => (Ok (collect codes), d)
      end
  end.

(** [_on_texture(self, instance)], lines 86-88.  When the detection
    raises, the assignment does not happen. *)
Definition _on_texture (instance : Texture) (self : ZBarCam) (d : Decoder)
  : result ZBarCam * Decoder :=
  let '(r, d) := _detect_qrcode_frame instance (code_types self) d in
  match r with
  | Raise e => (Raise e, d)
  | Ok v => (Ok (set_symbols v self), d)
  end.

(** [start] and [stop], lines 112-116. *)
Definition start (self : ZBarCam) : ZBarCam := set_play true self.
Definition stop (self : ZBarCam) : ZBarCam := set_play false self.

End Widget.

End ZBarSync.

(** * Stand-ins for the external decoders

    Used to run the embedding on concrete frames.  A frame shows a QR
    code with payload HELLO exactly when its first greyscale byte is
    not zero.  Both decoders count the scans they have performed; the
    count never influences what they report. *)
Module TestDecoders.

Definition shows_code (raw : bytes) : bool :=
  match raw with
  | b :: _ => negb (Z.eqb (PIL.Z_of_byte b) 0)
  | [] => false
  end.

(** zbar: one QRCODE symbol (type 64) or none. *)
Definition zbar_scan (n : nat) (width height : Z) (raw : bytes)
  : result (Z * list zbar.Symbol) * nat :=
  if shows_code raw
  then (Ok (1, [zbar.mkSymbol 64 "HELLO" 1 0]), S n)
  else (Ok (0, []), S n).

Definition symbol_name (t : pyzbar.ZBarSymbol) : string :=
  match t with
  | pyzbar.QRCODE => "QRCODE"
  | pyzbar.EAN13 => "EAN13"
  | _ => "OTHER"
  end.

(** What zbar sees in the image before any restriction to enabled types. *)
Definition found (img : PIL.Image) : list pyzbar.ZBarSymbol :=
  if shows_code (PIL.tobytes (PIL.convert_L img)) then [pyzbar.QRCODE] else [].

(** pyzbar: [decode] restricts the scanner to [symbols] only under
    [if symbols:], so an empty collection leaves every symbology
    enabled. *)
Definition pyzbar_decode (n : nat) (img : PIL.Image) (symbols : list pyzbar.ZBarSymbol)
  : result (list pyzbar.Decoded) * nat :=
  let enabled (t : pyzbar.ZBarSymbol) : bool :=
    match symbols with
    | [] => true
    | _ => bool_decide (t ∈ symbols)
    end in
  (Ok (map (fun t => pyzbar.mkDecoded (symbol_name t) "HELLO")
           (List.filter enabled (found img))), S n).

(** Frames used in the examples. *)
Definition px (n : N) : byte := PIL.byte_of_Z (Z.of_N n).

Definition white_rgba_1x1 : Texture := mkTexture (1, 1) "rgba" [px 255; px 255; px 255; px 255].
Definition black_rgba_1x1 : Texture := mkTexture (1, 1) "rgba" [px 0; px 0; px 0; px 255].
Definition white_bgra_1x1 : Texture := mkTexture (1, 1) "bgra" [px 255; px 255; px 255; px 255].

End TestDecoders.

(** * Counting along traces of the threaded widget *)
Module Traces.

Definition is_frame (e : ZBarThread.Event) : bool :=
  match e with ZBarThread.FrameArrives _ => true | _ => false end.

(** The number of frames the camera delivers along a trace. *)
Definition frames_arrived (tr : list ZBarThread.Event) : nat :=
  length (List.filter is_frame tr).

(** Calls of [start] or [stop]. *)
Definition is_play_call (e : ZBarThread.Event) : bool :=
  match e with ZBarThread.Start | ZBarThread.Stop => true | _ => false end.

(** Threads that have run to their end. *)
Definition finished {Scanner : Type} (w : @ZBarThread.World Scanner) : nat :=
  length (filter (fun t => ZBarThread.alive t = false) (ZBarThread.threads w)).

End Traces.

(** * Setting the camera widget up

    [_remove_shoot_button] and [_enable_android_autofocus] of both
    files, [__init__] of [src/zbarcam.py] and [_setup] of
    [src/zbarcam/zbarcam.py].  The XCamera widget is reduced to what
    these functions touch. *)
Module Setup.

Inductive SetupExc : Type := IndexError | AttributeError.

(** The core camera behind the widget ([xcamera._camera]):
    - [_android_camera]: present only with the Android provider; the
      Android camera is reduced to its parameters, a table from keys to
      values, which [getParameters] reads and [setParameters] writes;
    - [on_texture]: how many callbacks [bind(on_texture=...)] has added. *)
Record CoreCamera : Type := mkCoreCamera {
  _android_camera : option (gmap string string);
  on_texture : nat
}.

(** The XCamera widget: its [children], first entry first, each child
    named by a number, and its core camera. *)
Record XCamera : Type := mkXCamera {
  children : list nat;
  _camera : CoreCamera
}.

(** [list.remove(x)]: drops the first entry equal to [x]. *)
Fixpoint list_remove (x : nat) (l : list nat) : list nat :=
  match l with
  | [] => []
  | y :: l' => if Nat.eqb x y then l' else y :: list_remove x l'
  end.

(** [Widget.remove_widget(widget)]: nothing happens when [widget] is
    not a child. *)
Definition remove_widget (widget : nat) (xcamera : XCamera) : XCamera :=
  if bool_decide (widget ∈ children xcamera)
  then mkXCamera (list_remove widget (children xcamera)) (_camera xcamera)
  else xcamera.

(** [_remove_shoot_button], the same in both files. *)
Definition _remove_shoot_button (xcamera : XCamera) : SetupExc + XCamera :=
  match children xcamera !! 0%nat with
  | None => inl IndexError
  | Some shoot_button => inr (remove_widget shoot_button xcamera)
  end.

(** [params.setFocusMode(value)] *)
Definition setFocusMode (value : string) (params : gmap string string)
  : gmap string string :=
  <["focus-mode"%string := value]> params.

(** The part of [_enable_android_autofocus] after the platform test. *)
Definition set_continuous_focus (xcamera : XCamera) : SetupExc + XCamera :=
  match _android_camera (_camera xcamera) with
  | None => inl AttributeError
  | Some camera =>
      let params := camera in
      let params := setFocusMode "continuous-video" params in
      inr (mkXCamera (children xcamera)
             (mkCoreCamera (Some params) (on_texture (_camera xcamera))))
  end.

(** [_enable_android_autofocus] of [src/zbarcam.py], lines 60-69. *)
Definition _enable_android_autofocus (platform : string) (xcamera : XCamera)
  : SetupExc + XCamera :=
  if negb (String.eqb platform "android") then inr xcamera
  else set_continuous_focus xcamera.

(** [is_android] and [_enable_android_autofocus] of
    [src/zbarcam/zbarcam.py], lines 118-119 and 65-74. *)
Definition is_android (platform : string) : bool := String.eqb platform "android".

Definition _enable_android_autofocus_sync (platform : string) (xcamera : XCamera)
  : SetupExc + XCamera :=
  if negb (is_android platform) then inr xcamera
  else set_continuous_focus xcamera.

(** [xcamera._camera.bind(on_texture=self._on_texture)] *)
Definition bind_on_texture (xcamera : XCamera) : XCamera :=
  mkXCamera (children xcamera)
    (mkCoreCamera (_android_camera (_camera xcamera))
                  (S (on_texture (_camera xcamera)))).

(** [__init__] of [src/zbarcam.py], lines 38-49, given the camera
    widget that [Camera(play=True, resolution=...)] builds and the
    scanner that [zbar.ImageScanner()] builds. *)
Definition __init__ {Scanner : Type} (platform : string) (camera : XCamera)
    (sc : Scanner) : SetupExc + (XCamera * @ZBarThread.World Scanner) :=
  match _remove_shoot_button camera with
  | inl e => inl e
  | inr camera =>
      match _enable_android_autofocus platform camera with
      | inl e => inl e
      | inr camera => inr (bind_on_texture camera, ZBarThread.init sc)
      end
  end.

(** [_setup] of [src/zbarcam/zbarcam.py], lines 47-54. *)
Definition _setup (platform : string) (xcamera : XCamera) : SetupExc + XCamera :=
  match _remove_shoot_button xcamera with
  | inl e => inl e
  | inr xcamera =>
      match _enable_android_autofocus_sync platform xcamera with
      | inl e => inl e
      | inr xcamera => inr (bind_on_texture xcamera)
      end
  end.

End Setup.

(** * The import block of both files, lines 14-23

    [PIL.Image.frombytes] and [PIL.Image.Image.tobytes] are looked up;
    when either lookup raises [AttributeError], both names are assigned
    from [frombuffer] and [tostring]. *)
Module PILCompat.

Section Namespace.

(** What a name is bound to. *)
Context {Impl : Type}.

(** The four attributes the block reads or writes; [None] is an
    attribute that does not exist. *)
Record Namespace : Type := mkNamespace {
  frombytes : option Impl;
  frombuffer : option Impl;
  tobytes : option Impl;
  tostring : option Impl
}.

(** The block: [inr] is the namespace after it, [inl] the namespace at
    the moment an [AttributeError] leaves the [except] clause. *)
Definition import_block (ns : Namespace) : Namespace + Namespace :=
  match frombytes ns, tobytes ns with
  | Some _, Some _ => inr ns
  | _, _ =>
      match frombuffer ns with
      | None => inl ns
      | Some fb =>
          let ns := mkNamespace (Some fb) (frombuffer ns) (tobytes ns) (tostring ns) in
          match tostring ns with
          | None => inl ns
          | Some ts => inr (mkNamespace (frombytes ns) (frombuffer ns) (Some ts) (tostring ns))
          end
      end
  end.

End Namespace.

End PILCompat.

(** * The demo application of [src/zbarcam.py]

    The label's rule in [DEMO_APP_KV_LANG], line 150: the payloads of
    the published symbols joined by a comma and a space.  The payloads
    are strings already, which [str] returns as they are. *)
Module Demo.

Definition label_text (symbols : list ZBarThread.Qrcode) : string :=
  String.concat ", " (map ZBarThread.data symbols).

End Demo.

(** * Loops that build a list by appending *)

Lemma append_loop_map {A B} (f : A -> B) (l : list A) (acc : list B) :
  fold_left (fun symbols x => symbols ++ [f x]) l acc = acc ++ map f l.
Proof.
  revert acc. induction l as [|x l IH]; intros acc; simpl.
  - by rewrite app_nil_r.
  - rewrite IH. by rewrite <- app_assoc.
Qed.

(** * The threaded widget: at most one decode in flight *)
Section ThreadedScheduler.

Import ZBarThread.

Context {Scanner : Type}.
Variable scan : Scanner -> Z -> Z -> bytes ->
                result (Z * list zbar.Symbol) * Scanner.

Implicit Types (w : @World Scanner) (e : Event) (tr : list Event).
Implicit Types (ts : list Thread) (t : Thread) (i : nat).

Lemma detect_keeps_threads ctx texture w :
  threads (_detect_qrcode_frame scan ctx texture w) = threads w /\
  _detect_qrcode_frame_thread (_detect_qrcode_frame scan ctx texture w)
  = _detect_qrcode_frame_thread w.
Proof.
  unfold _detect_qrcode_frame.
  destruct (greyscale texture) as [[[width height] raw]|err]; [|done].
  destruct (scan _ _ _ _) as [[[n zimage]|err] sc]; [|done].
  by destruct (n =? 0).
Qed.

Lemma alive_count_nil ts :
  length (filter (fun t => alive t = true) ts) = 0%nat ->
  forall i t, ts !! i = Some t -> alive t = false.
Proof.
  induction ts as [|t0 ts IH]; intros Hlen i t Hi; [done|].
  rewrite filter_cons in Hlen.
  destruct (decide (alive t0 = true)) as [Ht0|Ht0]; [done|].
  destruct i as [|i]; simpl in Hi.
  - injection Hi as <-. by destruct (alive t0).
  - by eapply IH.
Qed.

Lemma alive_count_pos ts :
  (0 < length (filter (fun t => alive t = true) ts))%nat ->
  exists i t, ts !! i = Some t /\ alive t = true.
Proof.
  induction ts as [|t0 ts IH]; simpl; intros Hlen; [lia|].
  rewrite filter_cons in Hlen.
  destruct (decide (alive t0 = true)) as [Ht0|Ht0].
  - by exists 0%nat, t0.
  - destruct (IH Hlen) as (i & t & Hi & Ht). by exists (S i), t.
Qed.

Lemma alive_count_unique ts k :
  (forall i t, ts !! i = Some t -> alive t = true -> i = k) ->
  (length (filter (fun t => alive t = true) ts) <= 1)%nat.
Proof.
  revert k. induction ts as [|t0 ts IH]; intros k Hk; simpl; [lia|].
  rewrite filter_cons.
  destruct (decide (alive t0 = true)) as [Ht0|Ht0].
  - assert (k = 0%nat) as -> by (symmetry; by eapply (Hk 0%nat t0)).
    destruct (filter _ ts) as [|t1 ts'] eqn:Hf; [simpl; lia|]. exfalso.
    pose proof (list_elem_of_here t1 ts') as Hin. rewrite <- Hf in Hin.
    apply list_elem_of_filter in Hin as [Ht1 Hin].
    apply list_elem_of_lookup in Hin as [j Hj].
    by specialize (Hk (S j) t1 Hj Ht1).
  - apply (IH (pred k)). intros i t Hi Ht.
    by rewrite <- (Hk (S i) t Hi Ht).
Qed.

Lemma owned_in_flight w : owned w -> (in_flight w <= 1)%nat.
Proof.
  intros Hw. unfold in_flight.
  destruct (_detect_qrcode_frame_thread w) as [k|] eqn:Hk.
  - apply (alive_count_unique _ k). intros i t Hi Ht.
    specialize (Hw i t Hi Ht). congruence.
  - apply (alive_count_unique _ 0%nat). intros i t Hi Ht.
    specialize (Hw i t Hi Ht). congruence.
Qed.

Lemma owned_init (sc : Scanner) : owned (init sc).
Proof. intros i t Hi. done. Qed.

Lemma owned_on_texture instance w : owned w -> owned (_on_texture instance w).
Proof.
  intros Hw. unfold _on_texture.
  destruct (match _detect_qrcode_frame_thread w with
            | Some i => is_alive w i | None => false end) eqn:Hbusy; [done|].
  intros i t Hi Ht. simpl in *.
  destruct (decide (i < length (threads w))%nat) as [Hlt|Hge].
  - rewrite lookup_app_l in Hi by done.
    pose proof (Hw i t Hi Ht) as Href. rewrite Href in Hbusy.
    unfold is_alive in Hbusy. rewrite Hi in Hbusy. congruence.
  - apply lookup_lt_Some in Hi as Hlen. rewrite length_app in Hlen. simpl in Hlen.
    f_equal. lia.
Qed.

Lemma owned_run_thread i w : owned w -> owned (run_thread scan i w).
Proof.
  intros Hw. unfold run_thread.
  destruct (threads w !! i) as [ti|] eqn:Hti; [|done].
  destruct (alive ti) eqn:Hali; [|done].
  destruct (detect_keeps_threads WorkerThread (kwargs ti) w) as [Hts Href].
  intros j t Hj Ht. simpl in *. rewrite Href. rewrite Hts in Hj.
  destruct (decide (i = j)) as [->|Hne].
  - rewrite list_lookup_insert_eq in Hj by (by eapply lookup_lt_Some).
    injection Hj as <-. done.
  - rewrite list_lookup_insert_ne in Hj by done. by apply (Hw j t).
Qed.

Lemma owned_step e w : owned w -> owned (step scan e w).
Proof.
  destruct e; simpl.
  - apply owned_on_texture.
  - apply owned_run_thread.
  - intros Hw. unfold clock_tick. by destruct (clock w).
  - done.
  - done.
Qed.

Lemma owned_run tr w : owned w -> owned (run scan tr w).
Proof.
  revert w. induction tr as [|e tr IH]; intros w Hw; [done|].
  apply IH. by apply owned_step.
Qed.

(** A frame that arrives while a decode is in flight changes nothing. *)
Lemma on_texture_busy instance w :
  owned w -> in_flight w = 1%nat -> _on_texture instance w = w.
Proof.
  intros Hw Hone. unfold in_flight in Hone.
  destruct (alive_count_pos (threads w)) as (i & t & Hi & Ht); [lia|].
  unfold _on_texture. rewrite (Hw i t Hi Ht).
  unfold is_alive. by rewrite Hi, Ht.
Qed.

(** A frame that arrives while no decode is in flight starts one. *)
Lemma on_texture_idle instance w :
  in_flight w = 0%nat -> _on_texture instance w = start_thread instance w.
Proof.
  intros Hzero. unfold _on_texture.
  destruct (_detect_qrcode_frame_thread w) as [i|]; [|done].
  unfold is_alive. destruct (threads w !! i) as [t|] eqn:Hi; [|done].
  by rewrite (alive_count_nil _ Hzero i t Hi).
Qed.

Lemma in_flight_start_thread instance w :
  in_flight (start_thread instance w) = S (in_flight w).
Proof.
  unfold in_flight. simpl. rewrite filter_app, length_app. simpl. lia.
Qed.

Lemma run_dropped_frames (rest : list Texture) w :
  owned w -> in_flight w = 1%nat ->
  run scan (map FrameArrives rest) w = w /\
  decodes_started scan (map FrameArrives rest) w = 0%nat /\
  frames_dropped scan (map FrameArrives rest) w = length rest.
Proof.
  intros Hw Hone. induction rest as [|f rest (IH1 & IH2 & IH3)]; [done|].
  unfold run in *. simpl. rewrite (on_texture_busy f w Hw Hone).
  rewrite Nat.ltb_irrefl, Nat.eqb_refl. rewrite IH1, IH2, IH3. done.
Qed.

(** C1.  Along every sequence of events from the freshly built widget
    at most one decode is in flight.  A frame that arrives while a
    decode is in flight leaves the whole state as it was: no thread is
    created and the frame is stored nowhere.  A burst of [1 + length
    rest] frames arriving while no thread finishes, from a state with
    no decode in flight, starts exactly one decode and drops the other
    [length rest] frames; the state after the burst is the state after
    its first frame alone. *)
Theorem at_most_one_decode_in_flight (sc : Scanner) tr :
  let w := run scan tr (init sc) in
  (in_flight w <= 1)%nat /\
  (forall instance, in_flight w = 1%nat -> _on_texture instance w = w) /\
  (forall first rest, in_flight w = 0%nat ->
     let burst := map FrameArrives (first :: rest) in
     decodes_started scan burst w = 1%nat /\
     frames_dropped scan burst w = length rest /\
     run scan burst w = _on_texture first w /\
     in_flight (run scan burst w) = 1%nat).
Proof.
  intros w.
  assert (owned w) as Hw by (apply owned_run, owned_init).
  split; [by apply owned_in_flight|].
  split; [intros instance; by apply on_texture_busy|].
  intros first rest Hzero burst. subst burst.
  pose proof (on_texture_idle first w Hzero) as Hfirst.
  assert (in_flight (_on_texture first w) = 1%nat) as Hone
    by (rewrite Hfirst, in_flight_start_thread; lia).
  assert (owned (_on_texture first w)) as Hw1 by (by apply owned_on_texture).
  destruct (run_dropped_frames rest _ Hw1 Hone) as (Hrun & Hstarted & Hdropped).
  unfold run in *. cbn [map fold_left decodes_started frames_dropped step
                         starts_decode is_dropped].
  rewrite Hrun, Hstarted, Hdropped.
  repeat split; try done.
  - rewrite Hfirst. simpl. rewrite length_app. simpl.
    destruct (Nat.ltb_spec (length (threads w)) (length (threads w) + 1)); [done|lia].
  - rewrite Hfirst. simpl. rewrite length_app. simpl.
    destruct (Nat.eqb_spec (length (threads w) + 1) (length (threads w))); [lia|done].
Qed.

End ThreadedScheduler.

Lemma at_most_one_decode_in_flight_witness :
  let w := ZBarThread.init 0%nat in
  let burst := map ZBarThread.FrameArrives
                 [TestDecoders.white_rgba_1x1; TestDecoders.black_rgba_1x1;
                  TestDecoders.white_rgba_1x1] in
  ZBarThread.in_flight w = 0%nat /\
  ZBarThread.decodes_started TestDecoders.zbar_scan burst w = 1%nat /\
  ZBarThread.frames_dropped TestDecoders.zbar_scan burst w = 2%nat.
Proof.
  intros w burst.
  destruct (at_most_one_decode_in_flight TestDecoders.zbar_scan 0%nat [])
    as (_ & _ & Hburst).
  destruct (Hburst TestDecoders.white_rgba_1x1
              [TestDecoders.black_rgba_1x1; TestDecoders.white_rgba_1x1]
              eq_refl) as (Hs & Hd & _).
  split; [reflexivity|]. split; [exact Hs|exact Hd].
Defined.

(** Two frames in quick succession while the first decode is still
    running: one thread, one update of [symbols]. *)
Example back_to_back_frames :
  let w := ZBarThread.run TestDecoders.zbar_scan
             [ZBarThread.FrameArrives TestDecoders.white_rgba_1x1;
              ZBarThread.FrameArrives TestDecoders.white_rgba_1x1;
              ZBarThread.ThreadRuns 0; ZBarThread.ClockTick]
             (ZBarThread.init 0%nat) in
  length (ZBarThread.threads w) = 1%nat /\
  ZBarThread.writes w
  = [(ZBarThread.MainThread, [ZBarThread.mkQrcode 64 "HELLO" None 1 0])].
Proof. vm_compute. done. Qed.

(** * The threaded widget: how results reach [symbols] *)
Section ThreadedPublisher.

Import ZBarThread.

Context {Scanner : Type}.
Variable scan : Scanner -> Z -> Z -> bytes ->
                result (Z * list zbar.Symbol) * Scanner.

Implicit Types (w : @World Scanner) (e : Event) (tr : list Event).
Implicit Types (t : Thread) (i : nat) (zimage : list zbar.Symbol).

Lemma collect_map zimage : collect zimage = map qrcode_of zimage.
Proof. unfold collect. by rewrite append_loop_map. Qed.

(** The two ways a decode that went through ends. *)
Lemma detect_none ctx texture w width height raw zimage sc' :
  greyscale texture = Ok (width, height, raw) ->
  scan (scanner w) width height raw = (Ok (0, zimage), sc') ->
  _detect_qrcode_frame scan ctx texture w = assign_symbols ctx [] (set_scanner sc' w).
Proof. intros Hg Hs. unfold _detect_qrcode_frame. by rewrite Hg, Hs. Qed.

Lemma detect_some ctx texture w width height raw n zimage sc' :
  greyscale texture = Ok (width, height, raw) ->
  scan (scanner w) width height raw = (Ok (n, zimage), sc') ->
  n <> 0 ->
  _detect_qrcode_frame scan ctx texture w
  = _update_symbols (map qrcode_of zimage) (set_scanner sc' w).
Proof.
  intros Hg Hs Hn. unfold _detect_qrcode_frame. rewrite Hg, Hs.
  destruct (Z.eqb_spec n 0); [done|]. by rewrite collect_map.
Qed.

Lemma run_cons e tr w : run scan (e :: tr) w = run scan tr (step scan e w).
Proof. reflexivity. Qed.

(** Running the clock until a given scheduled update has been applied. *)
Lemma clock_drains (pending : list (list Qrcode)) v w :
  clock w = pending ++ [v] ->
  symbols (run scan (replicate (S (length pending)) ClockTick) w) = v /\
  play (run scan (replicate (S (length pending)) ClockTick) w) = play w /\
  clock (run scan (replicate (S (length pending)) ClockTick) w) = [].
Proof.
  revert w. induction pending as [|u pending IH]; intros w Hc.
  - unfold run. simpl. unfold clock_tick. rewrite Hc. done.
  - change (replicate (S (length (u :: pending))) ClockTick)
      with (ClockTick :: replicate (S (length pending)) ClockTick).
    rewrite run_cons.
    assert (clock (step scan ClockTick w) = pending ++ [v] /\
            play (step scan ClockTick w) = play w) as [Hc' Hp']
      by (simpl; unfold clock_tick; rewrite Hc; done).
    destruct (IH _ Hc') as (Hs & Hp & Hk). by rewrite Hs, Hp, Hk.
Qed.

(** One full cycle of a decode that found symbols: the thread ends, the
    clock runs up to the update it scheduled. *)
Lemma cycle_publishes w i t width height raw n zimage sc' :
  threads w !! i = Some t -> alive t = true ->
  greyscale (kwargs t) = Ok (width, height, raw) ->
  scan (scanner w) width height raw = (Ok (n, zimage), sc') ->
  n <> 0 ->
  let w' := run scan (ThreadRuns i :: replicate (S (length (clock w))) ClockTick) w in
  symbols w' = map qrcode_of zimage /\ play w' = play w.
Proof.
  intros Hi Ht Hg Hs Hn. cbv zeta. rewrite run_cons.
  assert (clock (step scan (ThreadRuns i) w) = clock w ++ [map qrcode_of zimage] /\
          play (step scan (ThreadRuns i) w) = play w) as [Hc Hp].
  { simpl. unfold run_thread. rewrite Hi, Ht.
    rewrite (detect_some _ _ _ _ _ _ _ _ _ Hg Hs Hn). done. }
  destruct (clock_drains _ _ _ Hc) as (Hsym & Hplay & _).
  by rewrite Hsym, Hplay, Hp.
Qed.

(** One full cycle of a decode that found nothing. *)
Lemma cycle_clears w i t width height raw zimage sc' :
  threads w !! i = Some t -> alive t = true ->
  greyscale (kwargs t) = Ok (width, height, raw) ->
  scan (scanner w) width height raw = (Ok (0, zimage), sc') ->
  symbols (step scan (ThreadRuns i) w) = [] /\
  writes (step scan (ThreadRuns i) w) = (WorkerThread, []) :: writes w.
Proof.
  intros Hi Ht Hg Hs. simpl. unfold run_thread. rewrite Hi, Ht.
  by rewrite (detect_none _ _ _ _ _ _ _ _ Hg Hs).
Qed.

(** C3 (amended).  [stop] only clears the camera's play flag, and the
    body of [_update_symbols] assigns whatever list it is given without
    looking at any flag.  So when [stop] is called while a decode that
    finds symbols is in flight, the decode still completes and, once the
    clock has run up to the update it scheduled, [symbols] holds its
    result. *)
Theorem stop_keeps_in_flight_result w i t width height raw n zimage sc' :
  threads w !! i = Some t -> alive t = true ->
  greyscale (kwargs t) = Ok (width, height, raw) ->
  scan (scanner w) width height raw = (Ok (n, zimage), sc') ->
  n <> 0 ->
  let w' := run scan (Stop :: ThreadRuns i ::
                      replicate (S (length (clock w))) ClockTick) w in
  play w' = false /\
  symbols w' = map qrcode_of zimage /\
  (forall ctx syms w0, symbols (_update_symbols_body ctx syms w0) = syms).
Proof.
  intros Hi Ht Hg Hs Hn w'.
  destruct (cycle_publishes (stop w) i t width height raw n zimage sc'
              Hi Ht Hg Hs Hn) as [Hsym Hplay].
  subst w'. rewrite run_cons. simpl step.
  change (clock (stop w)) with (clock w) in *.
  cbv zeta in Hsym, Hplay. rewrite Hsym, Hplay. done.
Qed.

End ThreadedPublisher.

Lemma stop_keeps_in_flight_result_witness :
  let w := ZBarThread.run TestDecoders.zbar_scan
             [ZBarThread.FrameArrives TestDecoders.white_rgba_1x1]
             (ZBarThread.init 0%nat) in
  let w' := ZBarThread.run TestDecoders.zbar_scan
              [ZBarThread.Stop; ZBarThread.ThreadRuns 0; ZBarThread.ClockTick] w in
  ZBarThread.in_flight w = 1%nat /\
  ZBarThread.play w' = false /\
  ZBarThread.symbols w' = [ZBarThread.mkQrcode 64 "HELLO" None 1 0].
Proof.
  intros w w'.
  destruct (stop_keeps_in_flight_result TestDecoders.zbar_scan w 0%nat
              (ZBarThread.mkThread TestDecoders.white_rgba_1x1 true)
              1 1 [TestDecoders.px 255] 1 [zbar.mkSymbol 64 "HELLO" 1 0] 1%nat
              eq_refl eq_refl eq_refl eq_refl ltac:(lia)) as (Hplay & Hsym & _).
  split; [reflexivity|]. split; [exact Hplay|exact Hsym].
Defined.

(** C3 as stated fails: [stop] is called while the decode is in flight,
    and the result of that decode still replaces the published list. *)
Lemma stop_does_not_discard_in_flight_result :
  let w := ZBarThread.run TestDecoders.zbar_scan
             [ZBarThread.FrameArrives TestDecoders.white_rgba_1x1; ZBarThread.Stop]
             (ZBarThread.init 0%nat) in
  let w' := ZBarThread.run TestDecoders.zbar_scan
              [ZBarThread.ThreadRuns 0; ZBarThread.ClockTick] w in
  ZBarThread.in_flight w = 1%nat /\
  ZBarThread.play w = false /\
  ZBarThread.symbols w = [] /\
  ZBarThread.symbols w' = [ZBarThread.mkQrcode 64 "HELLO" None 1 0] /\
  ZBarThread.symbols w' <> ZBarThread.symbols w.
Proof. vm_compute. repeat split; discriminate. Qed.

(** C2 at the failing input: the frame shows no code, [scan] returns 0,
    and the assignment [self.symbols = []] is executed by the worker
    thread itself; nothing is handed to the main thread. *)
Theorem empty_result_assigned_on_worker_thread :
  let w := ZBarThread.run TestDecoders.zbar_scan
             [ZBarThread.FrameArrives TestDecoders.black_rgba_1x1;
              ZBarThread.ThreadRuns 0]
             (ZBarThread.init 0%nat) in
  ZBarThread.writes w = [(ZBarThread.WorkerThread, [])] /\
  ZBarThread.clock w = [] /\
  ZBarThread.in_flight w = 0%nat.
Proof. vm_compute. done. Qed.

(** * The threaded widget: what the published records contain *)
Section ThreadedRecords.

Import ZBarThread.

Context {Scanner : Type}.
Variable scan : Scanner -> Z -> Z -> bytes ->
                result (Z * list zbar.Symbol) * Scanner.

Implicit Types (w : @World Scanner) (e : Event) (tr : list Event).

Lemma records_ok_detect ctx texture w :
  records_ok scan w -> records_ok scan (_detect_qrcode_frame scan ctx texture w).
Proof.
  intros [Hsym Hclk]. unfold _detect_qrcode_frame.
  destruct (greyscale texture) as [[[width height] raw]|err]; [|done].
  destruct (scan _ _ _ _) as [[[n zimage]|err] sc] eqn:Hscan; [|done].
  destruct (n =? 0); [split; simpl; by auto|].
  split; simpl; [done|].
  apply Forall_app. split; [done|]. apply Forall_singleton.
  rewrite collect_map. apply Forall_forall. intros q Hq.
  apply list_elem_of_fmap in Hq as (symbol & -> & Hin).
  exists symbol. split; [|done]. by repeat eexists.
Qed.

Lemma records_ok_step e w : records_ok scan w -> records_ok scan (step scan e w).
Proof.
  intros Hw. destruct e as [instance|i| | |]; simpl.
  - unfold _on_texture. by destruct (match _ with Some _ => _ | None => _ end).
  - unfold run_thread. destruct (threads w !! i) as [t|]; [|done].
    destruct (alive t); [|done].
    by destruct (records_ok_detect WorkerThread (kwargs t) w Hw).
  - unfold clock_tick. destruct (clock w) as [|v rest] eqn:Hc; [done|].
    destruct Hw as [Hsym Hclk]. rewrite Hc in Hclk.
    apply Forall_cons in Hclk as [Hv Hrest]. by split.
  - done.
  - done.
Qed.

Lemma records_ok_run tr w : records_ok scan w -> records_ok scan (run scan tr w).
Proof.
  revert w. induction tr as [|e tr IH]; intros w Hw; [done|].
  apply IH. by apply records_ok_step.
Qed.

(** C10.  Along every sequence of events from the freshly built widget,
    each record in [symbols] has [bounds = None], and its [type],
    [data], [quality] and [count] are those of a symbol returned by the
    scanner. *)
Theorem published_qrcode_has_no_bounds (sc : Scanner) tr :
  Forall (fun q =>
            bounds q = None /\
            exists symbol,
              scanned scan symbol /\
              type q = zbar.type symbol /\ data q = zbar.data symbol /\
              quality q = zbar.quality symbol /\ count q = zbar.count symbol)
         (symbols (run scan tr (init sc))).
Proof.
  assert (records_ok scan (run scan tr (init sc))) as [Hsym _].
  { apply records_ok_run. by split. }
  eapply Forall_impl; [exact Hsym|].
  intros q (symbol & Hscanned & ->). split; [done|]. by exists symbol.
Qed.

(** X9.  Who writes [symbols]: along every sequence of events from the
    freshly built widget, each assignment is made on the main thread or
    is a worker thread emptying the list; a list with symbols in it is
    only ever assigned on the main thread. *)
Lemma writes_by_context (sc : Scanner) tr :
  Forall (fun cv => cv.1 = MainThread \/ cv = (WorkerThread, []))
         (writes (run scan tr (init sc))).
Proof.
  assert (forall tr w,
             Forall (fun cv => cv.1 = MainThread \/ cv = (WorkerThread, [])) (writes w) ->
             Forall (fun cv => cv.1 = MainThread \/ cv = (WorkerThread, []))
                    (writes (run scan tr w))) as Hrun.
  { clear tr. induction tr as [|e tr IH]; intros w Hw; [done|].
    apply IH. destruct e as [instance|i| | |]; simpl; try done.
    - unfold _on_texture. by destruct (match _ with Some _ => _ | None => _ end).
    - unfold run_thread. destruct (threads w !! i) as [t|]; [|done].
      destruct (alive t); [|done]. simpl. unfold _detect_qrcode_frame.
      destruct (greyscale _) as [[[width height] raw]|err]; [|done].
      destruct (scan _ _ _ _) as [[[n zimage]|err] sc']; [|done].
      destruct (n =? 0); [|done]. simpl. apply Forall_cons. split; [by right|done].
    - unfold clock_tick. destruct (clock w) as [|v rest]; [done|].
      simpl. apply Forall_cons. split; [by left|done]. }
  apply Hrun. done.
Qed.

End ThreadedRecords.

(** * Frames as greyscale buffers *)
Section Greyscale.

Import PIL.













End Greyscale.



(** * The synchronous widget *)
Section SyncGateway.

Import ZBarSync.

Variable platform : string.
Context {Decoder : Type}.
Variable decode : Decoder -> PIL.Image -> list pyzbar.ZBarSymbol ->
                  result (list pyzbar.Decoded) * Decoder.

Implicit Types (texture instance : Texture) (self : ZBarCam) (d : Decoder).
Implicit Types (code_types : list pyzbar.ZBarSymbol) (codes : list pyzbar.Decoded).

Lemma sync_collect_map codes : collect codes = map symbol_of codes.
Proof. unfold collect. by rewrite append_loop_map. Qed.

Lemma detect_decoded texture code_types d img codes d' :
  PIL.frombytes (pil_mode platform (colorfmt texture)) (size texture) (pixels texture)
  = Ok img ->
  decode d img code_types = (Ok codes, d') ->
  _detect_qrcode_frame platform decode texture code_types d
  = (Ok (map symbol_of codes), d').
Proof.
  intros Himg Hdec. unfold _detect_qrcode_frame. cbv zeta.
  by rewrite Himg, Hdec, sync_collect_map.
Qed.

Lemma detect_decoder_raises texture code_types d img err d' :
  PIL.frombytes (pil_mode platform (colorfmt texture)) (size texture) (pixels texture)
  = Ok img ->
  decode d img code_types = (Raise err, d') ->
  _detect_qrcode_frame platform decode texture code_types d = (Raise err, d').
Proof.
  intros Himg Hdec. unfold _detect_qrcode_frame. cbv zeta. by rewrite Himg, Hdec.
Qed.


(** C6 (amended).  The gateway hands the empty collection of types to
    the decoder as it is and returns one [Symbol] per code the decoder
    reports for it, in order; when the decoder raises, so does the
    gateway.  Nothing in the gateway makes the result empty. *)
Theorem empty_type_set_is_handed_to_decoder texture d img :
  PIL.frombytes (pil_mode platform (colorfmt texture)) (size texture) (pixels texture)
  = Ok img ->
  match decode d img [] with
  | (Ok codes, d') =>
      _detect_qrcode_frame platform decode texture [] d = (Ok (map symbol_of codes), d')
  | (Raise err, d') =>
      _detect_qrcode_frame platform decode texture [] d = (Raise err, d')
  end.
Proof.
  intros Himg. destruct (decode d img []) as [[codes|err] d'] eqn:Hdec.
  - by apply (detect_decoded _ _ _ img).
  - by apply (detect_decoder_raises _ _ _ img).
Qed.

(** C8.  When what the decoder reports does not depend on the state it
    keeps between calls, detection on the same texture with the same
    types gives the same result every time: called twice in a row, and
    from any two decoder states. *)
Theorem detection_is_repeatable texture code_types d :
  (forall d1 d2 img ts, (decode d1 img ts).1 = (decode d2 img ts).1) ->
  let first := _detect_qrcode_frame platform decode texture code_types d in
  let second := _detect_qrcode_frame platform decode texture code_types first.2 in
  second.1 = first.1 /\
  forall d', (_detect_qrcode_frame platform decode texture code_types d').1 = first.1.
Proof.
  intros Hdet.
  assert (forall d1 d2,
             (_detect_qrcode_frame platform decode texture code_types d1).1
             = (_detect_qrcode_frame platform decode texture code_types d2).1) as Hany.
  { intros d1 d2. unfold _detect_qrcode_frame. cbv zeta.
    destruct (PIL.frombytes _ _ _) as [img|err]; [|done].
    specialize (Hdet d1 d2 img code_types).
    destruct (decode d1 img code_types) as [[codes1|err1] d1'],
             (decode d2 img code_types) as [[codes2|err2] d2'];
      simpl in *; congruence. }
  split; [apply Hany|]. intros d'. apply Hany.
Qed.

(** A frame that went through replaces [symbols] by the list of that frame. *)
Lemma sync_on_texture_decoded instance self d img codes d' :
  PIL.frombytes (pil_mode platform (colorfmt instance)) (size instance) (pixels instance)
  = Ok img ->
  decode d img (code_types self) = (Ok codes, d') ->
  _on_texture platform decode instance self d
  = (Ok (set_symbols (map symbol_of codes) self), d').
Proof.
  intros Himg Hdec. unfold _on_texture.
  by rewrite (detect_decoded _ _ _ _ _ _ Himg Hdec).
Qed.

End SyncGateway.


Lemma empty_type_set_is_handed_to_decoder_witness :
  ZBarSync._detect_qrcode_frame "android" TestDecoders.pyzbar_decode
    TestDecoders.white_rgba_1x1 [] 0%nat
  = (Ok [ZBarSync.mkSymbol "QRCODE" "HELLO"], 1%nat).
Proof.
  exact (empty_type_set_is_handed_to_decoder "android" TestDecoders.pyzbar_decode
           TestDecoders.white_rgba_1x1 0%nat _ eq_refl).
Defined.

(** C6 as stated fails: with no type enabled, the frame that shows a QR
    code still yields that code. *)
Lemma empty_type_set_result_not_empty :
  ZBarSync._detect_qrcode_frame "android" TestDecoders.pyzbar_decode
    TestDecoders.white_rgba_1x1 [] 0%nat
  = (Ok [ZBarSync.mkSymbol "QRCODE" "HELLO"], 1%nat) /\
  ZBarSync._detect_qrcode_frame "android" TestDecoders.pyzbar_decode
    TestDecoders.white_rgba_1x1 [] 0%nat
  <> (Ok [], 1%nat).
Proof. split; [reflexivity|discriminate]. Qed.

Lemma detection_is_repeatable_witness :
  let first := ZBarSync._detect_qrcode_frame "android" TestDecoders.pyzbar_decode
                 TestDecoders.white_rgba_1x1 [pyzbar.QRCODE] 0%nat in
  let second := ZBarSync._detect_qrcode_frame "android" TestDecoders.pyzbar_decode
                  TestDecoders.white_rgba_1x1 [pyzbar.QRCODE] first.2 in
  first.2 <> 0%nat /\ second.1 = first.1.
Proof.
  intros first second. split; [discriminate|].
  apply (detection_is_repeatable "android" TestDecoders.pyzbar_decode
           TestDecoders.white_rgba_1x1 [pyzbar.QRCODE] 0%nat).
  intros d1 d2 img ts. reflexivity.
Defined.

(** * What a detection cycle leaves in [symbols], and what [start] and
      [stop] leave alone *)
Section Publication.

Context {Scanner : Type}.
Variable scan : Scanner -> Z -> Z -> bytes ->
                result (Z * list zbar.Symbol) * Scanner.
Variable platform : string.
Context {Decoder : Type}.
Variable decode : Decoder -> PIL.Image -> list pyzbar.ZBarSymbol ->
                  result (list pyzbar.Decoded) * Decoder.

(** C7.  A detection cycle replaces [symbols] by the list of that cycle,
    whatever the list held before.
    Threaded widget: when the scanner reports no symbol the list is
    empty as soon as the thread has run; otherwise, once the clock has
    run up to the update the thread scheduled, the list holds one record
    per symbol of that frame, in the scanner's order.
    Synchronous widget: [_on_texture] assigns one [Symbol] per code of
    that frame, which is the empty list when the decoder reports none. *)
Theorem symbols_replaced_by_each_cycle :
  (forall (w : @ZBarThread.World Scanner) i t width height raw n zimage sc',
      ZBarThread.threads w !! i = Some t -> ZBarThread.alive t = true ->
      ZBarThread.greyscale (ZBarThread.kwargs t) = Ok (width, height, raw) ->
      scan (ZBarThread.scanner w) width height raw = (Ok (n, zimage), sc') ->
      (n = 0 ->
       ZBarThread.symbols (ZBarThread.step scan (ZBarThread.ThreadRuns i) w) = []) /\
      (n <> 0 ->
       ZBarThread.symbols
         (ZBarThread.run scan
            (ZBarThread.ThreadRuns i ::
             replicate (S (length (ZBarThread.clock w))) ZBarThread.ClockTick) w)
       = map ZBarThread.qrcode_of zimage)) /\
  (forall instance self (d : Decoder) img codes d',
      PIL.frombytes (ZBarSync.pil_mode platform (colorfmt instance)) (size instance)
        (pixels instance) = Ok img ->
      decode d img (ZBarSync.code_types self) = (Ok codes, d') ->
      exists self',
        ZBarSync._on_texture platform decode instance self d = (Ok self', d') /\
        ZBarSync.symbols self' = map (ZBarSync.symbol_of) codes /\
        (codes = [] -> ZBarSync.symbols self' = [])).
Proof.
  split.
  - intros w i t width height raw n zimage sc' Hi Ht Hg Hs. split.
    + intros ->. by destruct (cycle_clears scan w i t _ _ _ _ _ Hi Ht Hg Hs).
    + intros Hn. by destruct (cycle_publishes scan w i t _ _ _ _ _ _ Hi Ht Hg Hs Hn).
  - intros instance self d img codes d' Himg Hdec.
    exists (ZBarSync.set_symbols (map ZBarSync.symbol_of codes) self).
    split; [by apply (sync_on_texture_decoded _ _ _ _ _ img)|].
    split; [done|]. by intros ->.
Qed.

(** C9.  [start] and [stop] set the camera's play flag and nothing
    else: the published symbols, the configured types and every other
    field are as before, in both widgets. *)
Theorem start_stop_only_set_play :
  (forall (w : @ZBarThread.World Scanner) (b : bool),
      let w' := if b then ZBarThread.start w else ZBarThread.stop w in
      ZBarThread.play w' = b /\
      ZBarThread.resolution w' = ZBarThread.resolution w /\
      ZBarThread.symbols w' = ZBarThread.symbols w /\
      ZBarThread._detect_qrcode_frame_thread w' = ZBarThread._detect_qrcode_frame_thread w /\
      ZBarThread.scanner w' = ZBarThread.scanner w /\
      ZBarThread.threads w' = ZBarThread.threads w /\
      ZBarThread.clock w' = ZBarThread.clock w /\
      ZBarThread.writes w' = ZBarThread.writes w) /\
  (forall (self : ZBarSync.ZBarCam) (b : bool),
      let self' := if b then ZBarSync.start self else ZBarSync.stop self in
      ZBarSync.play self' = b /\
      ZBarSync.resolution self' = ZBarSync.resolution self /\
      ZBarSync.symbols self' = ZBarSync.symbols self /\
      ZBarSync.code_types self' = ZBarSync.code_types self).
Proof. split; intros x []; simpl; repeat split. Qed.

End Publication.

Lemma symbols_replaced_by_each_cycle_witness :
  let w := ZBarThread.mkWorld [640; 480] [ZBarThread.mkQrcode 13 "OLD" None 1 0]
             (Some 0%nat) true 0%nat
             [ZBarThread.mkThread TestDecoders.black_rgba_1x1 true] [] [] in
  let self := ZBarSync.mkZBarCam [640; 480] [ZBarSync.mkSymbol "EAN13" "OLD"]
                pyzbar.all_symbols true in
  ZBarThread.symbols (ZBarThread.step TestDecoders.zbar_scan (ZBarThread.ThreadRuns 0) w)
  = [] /\
  exists self',
    ZBarSync._on_texture "android" TestDecoders.pyzbar_decode
      TestDecoders.white_rgba_1x1 self 0%nat = (Ok self', 1%nat) /\
    ZBarSync.symbols self' = [ZBarSync.mkSymbol "QRCODE" "HELLO"].
Proof.
  intros w self.
  destruct (@symbols_replaced_by_each_cycle nat TestDecoders.zbar_scan "android"
              nat TestDecoders.pyzbar_decode) as [Hthread Hsync].
  split.
  - destruct (Hthread w 0%nat (ZBarThread.mkThread TestDecoders.black_rgba_1x1 true)
                1 1 [TestDecoders.px 0] 0 [] 1%nat eq_refl eq_refl eq_refl eq_refl)
      as [Hnone _].
    exact (Hnone eq_refl).
  - destruct (Hsync TestDecoders.white_rgba_1x1 self 0%nat _ _ _ eq_refl eq_refl)
      as (self' & Hrun & Hsym & _).
    exists self'. split; [exact Hrun|exact Hsym].
Defined.

(** * The threaded widget along whole traces *)
Section ThreadedTraces.

Import ZBarThread Traces.

Context {Scanner : Type}.
Variable scan : Scanner -> Z -> Z -> bytes ->
                result (Z * list zbar.Symbol) * Scanner.

Implicit Types (w : @World Scanner) (e : Event) (tr : list Event).
Implicit Types (ts : list Thread) (t : Thread) (i : nat).

Lemma run_thread_threads i w :
  threads (run_thread scan i w)
  = match threads w !! i with
    | Some t => if alive t then <[i := mkThread (kwargs t) false]> (threads w)
                else threads w
    | None => threads w
    end.
Proof.
  unfold run_thread. destruct (threads w !! i) as [t|]; [|done].
  destruct (alive t); [|done]. simpl.
  by destruct (detect_keeps_threads scan WorkerThread (kwargs t) w) as [-> _].
Qed.

Lemma on_texture_threads instance w :
  threads (_on_texture instance w) = threads w \/
  threads (_on_texture instance w) = threads w ++ [mkThread instance true].
Proof.
  unfold _on_texture.
  destruct (match _detect_qrcode_frame_thread w with
            | Some i => is_alive w i | None => false end); [by left|by right].
Qed.

(** What one event does to the size of the thread pool. *)
Lemma step_pool_size e w :
  length (threads (step scan e w))
  = (length (threads w) + (if starts_decode scan e w then 1 else 0))%nat /\
  ((if starts_decode scan e w then 1 else 0) + (if is_dropped scan e w then 1 else 0)
   = if is_frame e then 1 else 0)%nat.
Proof.
  destruct e as [instance|i| | |]; cbn [starts_decode is_dropped is_frame].
  - cbn [step]. destruct (on_texture_threads instance w) as [-> | ->].
    + rewrite Nat.ltb_irrefl, Nat.eqb_refl. lia.
    + rewrite length_app. simpl.
      destruct (Nat.ltb_spec (length (threads w)) (length (threads w) + 1)); [|lia].
      destruct (Nat.eqb_spec (length (threads w) + 1) (length (threads w))); lia.
  - cbn [step]. rewrite run_thread_threads.
    destruct (threads w !! i) as [t|]; [|lia].
    destruct (alive t); [rewrite length_insert|]; lia.
  - cbn [step]. unfold clock_tick. destruct (clock w); simpl; lia.
  - simpl. lia.
  - simpl. lia.
Qed.

(** X1.  Every frame the camera delivers either starts a decode or is
    dropped, and the thread pool grows by exactly the decodes started:
    thread objects are never removed. *)
Theorem every_frame_started_or_dropped tr w :
  (decodes_started scan tr w + frames_dropped scan tr w = frames_arrived tr)%nat /\
  length (threads (run scan tr w))
  = (length (threads w) + decodes_started scan tr w)%nat.
Proof.
  revert w. induction tr as [|e tr IH]; intros w.
  - simpl. split; [done|]. unfold run. simpl. lia.
  - destruct (IH (step scan e w)) as [IHcount IHpool].
    destruct (step_pool_size e w) as [Hpool Hcount].
    change (run scan (e :: tr) w) with (run scan tr (step scan e w)).
    cbn [decodes_started frames_dropped]. unfold frames_arrived in *.
    cbn [List.filter]. split.
    + destruct (is_frame e); simpl length; lia.
    + lia.
Qed.

(** The thread the field refers to is the only one that can be alive. *)
Lemma only_referenced_alive w i t j t' :
  owned w -> threads w !! i = Some t -> alive t = true ->
  threads w !! j = Some t' -> alive t' = true -> j = i.
Proof.
  intros Hw Hi Ht Hj Ht'.
  pose proof (Hw i t Hi Ht) as Hrefi. pose proof (Hw j t' Hj Ht') as Hrefj.
  congruence.
Qed.

(** X2.  Once the thread in flight has run to its end, whether it
    published, cleared the list or died from an exception, no decode is
    in flight and the next frame starts a new one. *)
Theorem next_frame_accepted_after_thread_ends (sc : Scanner) tr i t instance :
  let w := run scan tr (init sc) in
  threads w !! i = Some t -> alive t = true ->
  let w' := step scan (ThreadRuns i) w in
  in_flight w' = 0%nat /\
  _on_texture instance w' = start_thread instance w' /\
  in_flight (step scan (FrameArrives instance) w') = 1%nat.
Proof.
  intros w Hi Ht w'.
  assert (owned w) as Hw by (apply owned_run, owned_init).
  assert (in_flight w' = 0%nat) as Hzero.
  { destruct (in_flight w') as [|n] eqn:Hn; [done|]. exfalso.
    unfold in_flight in Hn.
    destruct (alive_count_pos (threads w')) as (j & t' & Hj & Ht'); [lia|].
    subst w'. cbn [step] in Hj. rewrite run_thread_threads, Hi, Ht in Hj.
    destruct (decide (i = j)) as [<-|Hne].
    - rewrite list_lookup_insert_eq in Hj by (by eapply lookup_lt_Some).
      injection Hj as <-. done.
    - rewrite list_lookup_insert_ne in Hj by done.
      pose proof (only_referenced_alive w i t j t' Hw Hi Ht Hj Ht'). done. }
  split; [done|].
  pose proof (on_texture_idle instance w' Hzero) as Hidle.
  split; [done|].
  cbn [step]. rewrite Hidle, in_flight_start_thread. lia.
Qed.

End ThreadedTraces.

Lemma next_frame_accepted_after_thread_ends_witness :
  let w' := ZBarThread.run TestDecoders.zbar_scan
              [ZBarThread.FrameArrives TestDecoders.white_bgra_1x1;
               ZBarThread.ThreadRuns 0]
              (ZBarThread.init 0%nat) in
  ZBarThread.symbols w' = [] /\ ZBarThread.clock w' = [] /\
  ZBarThread.in_flight w' = 0%nat /\
  ZBarThread.in_flight
    (ZBarThread.step TestDecoders.zbar_scan
       (ZBarThread.FrameArrives TestDecoders.white_rgba_1x1) w') = 1%nat.
Proof.
  intros w'.
  destruct (next_frame_accepted_after_thread_ends TestDecoders.zbar_scan 0%nat
              [ZBarThread.FrameArrives TestDecoders.white_bgra_1x1] 0%nat
              (ZBarThread.mkThread TestDecoders.white_bgra_1x1 true)
              TestDecoders.white_rgba_1x1 eq_refl eq_refl) as (Hzero & _ & Hone).
  split; [reflexivity|]. split; [reflexivity|]. split; [exact Hzero|exact Hone].
Defined.

(** * The threaded widget: publications and the play flag along traces *)
Section ThreadedHistory.

Import ZBarThread Traces.

Context {Scanner : Type}.
Variable scan : Scanner -> Z -> Z -> bytes ->
                result (Z * list zbar.Symbol) * Scanner.

Implicit Types (w : @World Scanner) (e : Event) (tr : list Event).
Implicit Types (ts : list Thread) (t : Thread) (i : nat).

Lemma finished_insert ts i t (kw : Texture) :
  ts !! i = Some t -> alive t = true ->
  length (filter (fun t => alive t = false) (<[i := mkThread kw false]> ts))
  = S (length (filter (fun t => alive t = false) ts)).
Proof.
  revert i. induction ts as [|t0 ts IH]; intros i Hi Ht; [done|].
  destruct i as [|i]; simpl in *.
  - injection Hi as ->. rewrite !filter_cons. simpl.
    destruct (decide (false = false)); [|done].
    destruct (decide (alive t = false)); [congruence|done].
  - rewrite !filter_cons. destruct (decide (alive t0 = false)); simpl;
      by rewrite (IH i Hi Ht).
Qed.

(** A decode leaves at most one publication behind: an assignment or a
    scheduled update. *)
Lemma detect_publishes_once ctx texture w :
  let w' := _detect_qrcode_frame scan ctx texture w in
  (length (writes w') + length (clock w') <= S (length (writes w) + length (clock w)))%nat.
Proof.
  unfold _detect_qrcode_frame.
  destruct (greyscale texture) as [[[width height] raw]|err]; [|simpl; lia].
  destruct (scan _ _ _ _) as [[[n zimage]|err] sc]; [|simpl; lia].
  destruct (n =? 0); simpl; [lia|]. rewrite length_app. simpl. lia.
Qed.

Lemma publications_step e w :
  (length (writes w) + length (clock w) <= finished w)%nat ->
  (length (writes (step scan e w)) + length (clock (step scan e w))
   <= finished (step scan e w))%nat.
Proof.
  intros Hw. unfold finished in *. destruct e as [instance|i| | |]; cbn [step].
  - unfold _on_texture.
    destruct (match _detect_qrcode_frame_thread w with
              | Some i => is_alive w i | None => false end); [done|].
    simpl. rewrite filter_app, length_app. lia.
  - rewrite run_thread_threads. unfold run_thread.
    destruct (threads w !! i) as [t|] eqn:Hi; [|done].
    destruct (alive t) eqn:Ht; [|done]. simpl.
    rewrite (finished_insert _ _ t _ Hi Ht).
    pose proof (detect_publishes_once WorkerThread (kwargs t) w) as Hone.
    simpl in Hone. lia.
  - unfold clock_tick. destruct (clock w) as [|v rest] eqn:Hc.
    + rewrite Hc. simpl in *. lia.
    + simpl in *. lia.
  - done.
  - done.
Qed.

(** X3.  Along every sequence of events from the freshly built widget,
    the assignments made to [symbols] together with the updates still
    waiting on the clock never outnumber the threads that have run to
    their end: a decode publishes at most once, and nothing else
    publishes. *)
Theorem at_most_one_publication_per_decode (sc : Scanner) tr :
  let w := run scan tr (init sc) in
  (length (writes w) + length (clock w) <= finished w)%nat.
Proof.
  assert (forall tr w,
             (length (writes w) + length (clock w) <= finished w)%nat ->
             (length (writes (run scan tr w)) + length (clock (run scan tr w))
              <= finished (run scan tr w))%nat) as Hrun.
  { clear tr. induction tr as [|e tr IH]; intros w Hw; [done|].
    apply IH. by apply publications_step. }
  apply Hrun. unfold finished. simpl. lia.
Qed.

Lemma detect_set_play ctx texture (b : bool) w :
  _detect_qrcode_frame scan ctx texture (set_play b w)
  = set_play b (_detect_qrcode_frame scan ctx texture w).
Proof.
  unfold _detect_qrcode_frame.
  destruct (greyscale texture) as [[[width height] raw]|err]; [|done].
  cbn [set_play scanner].
  destruct (scan _ _ _ _) as [[[n zimage]|err] sc]; [|done].
  by destruct (n =? 0).
Qed.

Lemma step_set_play e (b : bool) w :
  is_play_call e = false ->
  step scan e (set_play b w) = set_play b (step scan e w).
Proof.
  destruct e as [instance|i| | |]; intros He; try done; cbn [step].
  - unfold _on_texture. cbn [set_play _detect_qrcode_frame_thread].
    unfold is_alive. cbn [set_play threads].
    by destruct (match _detect_qrcode_frame_thread w with
                 | Some i => match threads w !! i with
                             | Some t => alive t | None => false end
                 | None => false end).
  - unfold run_thread. cbn [set_play threads].
    destruct (threads w !! i) as [t|]; [|done].
    destruct (alive t); [|done]. by rewrite detect_set_play.
  - unfold clock_tick. cbn [set_play clock]. by destruct (clock w).
Qed.

(** X4.  Nothing in the detection pipeline reads the play flag: along
    any trace without calls of [start] or [stop], setting the flag
    first or last gives the same state, so the frames delivered after
    [stop] are decoded and published exactly as without it. *)
Theorem play_flag_is_not_read_by_pipeline tr (b : bool) w :
  Forall (fun e => is_play_call e = false) tr ->
  run scan tr (set_play b w) = set_play b (run scan tr w) /\
  symbols (run scan tr (set_play b w)) = symbols (run scan tr w) /\
  writes (run scan tr (set_play b w)) = writes (run scan tr w).
Proof.
  intros Htr.
  assert (run scan tr (set_play b w) = set_play b (run scan tr w)) as Hrun.
  { revert w. induction Htr as [|e tr He Htr IH]; intros w; [done|].
    change (run scan (e :: tr) ?x) with (run scan tr (step scan e x)).
    by rewrite step_set_play, IH. }
  by rewrite Hrun.
Qed.

(** X5.  The clock is not aware of clears made by a worker thread: when
    an update from an earlier decode is still waiting on the clock and
    the thread in flight then finds no symbol, the list is emptied when
    that thread ends and holds the earlier result again after the next
    clock tick. *)
Theorem waiting_update_overwrites_later_clear
    w i t width height raw zimage sc' (v : list Qrcode) :
  threads w !! i = Some t -> alive t = true ->
  greyscale (kwargs t) = Ok (width, height, raw) ->
  scan (scanner w) width height raw = (Ok (0, zimage), sc') ->
  clock w = [v] ->
  let w1 := step scan (ThreadRuns i) w in
  let w2 := step scan ClockTick w1 in
  symbols w1 = [] /\ symbols w2 = v /\
  writes w2 = (MainThread, v) :: (WorkerThread, []) :: writes w.
Proof.
  intros Hi Ht Hg Hs Hc. cbn [step]. unfold run_thread. rewrite Hi, Ht.
  rewrite (detect_none scan _ _ _ _ _ _ _ _ Hg Hs).
  unfold clock_tick. simpl. rewrite Hc. done.
Qed.



(** X7.  Frames alone change nothing that is published: however many
    frames the camera delivers, as long as no thread runs and the clock
    does not tick, [symbols], the pending updates, the record of
    assignments, the scanner and the play flag are as before.  No
    decoding happens inside [_on_texture]. *)
Theorem frames_alone_publish_nothing (frames : list Texture) w :
  let w' := run scan (map FrameArrives frames) w in
  symbols w' = symbols w /\ clock w' = clock w /\ writes w' = writes w /\
  scanner w' = scanner w /\ play w' = play w /\ resolution w' = resolution w.
Proof.
  revert w. induction frames as [|f frames IH]; intros w; [done|].
  cbn [map]. change (run scan (FrameArrives f :: ?tr) w)
    with (run scan tr (_on_texture f w)).
  destruct (IH (_on_texture f w)) as (-> & -> & -> & -> & -> & ->).
  unfold _on_texture.
  by destruct (match _detect_qrcode_frame_thread w with
               | Some i => is_alive w i | None => false end).
Qed.

End ThreadedHistory.

Lemma play_flag_is_not_read_by_pipeline_witness :
  let tr := [ZBarThread.FrameArrives TestDecoders.white_rgba_1x1;
             ZBarThread.ThreadRuns 0; ZBarThread.ClockTick] in
  ZBarThread.symbols
    (ZBarThread.run TestDecoders.zbar_scan tr (ZBarThread.stop (ZBarThread.init 0%nat)))
  = ZBarThread.symbols (ZBarThread.run TestDecoders.zbar_scan tr (ZBarThread.init 0%nat)).
Proof.
  intros tr.
  apply (play_flag_is_not_read_by_pipeline TestDecoders.zbar_scan tr false
           (ZBarThread.init 0%nat)).
  repeat constructor.
Defined.

Lemma waiting_update_overwrites_later_clear_witness :
  let w := ZBarThread.run TestDecoders.zbar_scan
             [ZBarThread.FrameArrives TestDecoders.white_rgba_1x1;
              ZBarThread.ThreadRuns 0;
              ZBarThread.FrameArrives TestDecoders.black_rgba_1x1]
             (ZBarThread.init 0%nat) in
  let w1 := ZBarThread.step TestDecoders.zbar_scan (ZBarThread.ThreadRuns 1) w in
  let w2 := ZBarThread.step TestDecoders.zbar_scan ZBarThread.ClockTick w1 in
  ZBarThread.clock w = [[ZBarThread.mkQrcode 64 "HELLO" None 1 0]] /\
  ZBarThread.symbols w1 = [] /\
  ZBarThread.symbols w2 = [ZBarThread.mkQrcode 64 "HELLO" None 1 0].
Proof.
  intros w w1 w2.
  destruct (waiting_update_overwrites_later_clear TestDecoders.zbar_scan w 1%nat
              (ZBarThread.mkThread TestDecoders.black_rgba_1x1 true)
              1 1 [TestDecoders.px 0] [] 2%nat
              [ZBarThread.mkQrcode 64 "HELLO" None 1 0]
              eq_refl eq_refl eq_refl eq_refl eq_refl) as (Hclear & Hstale & _).
  split; [reflexivity|]. split; [exact Hclear|exact Hstale].
Defined.


(** * Format tags in upper and lower case *)
Section TagCase.

Lemma upper_ascii_idempotent (c : ascii) : upper_ascii (upper_ascii c) = upper_ascii c.
Proof. destruct c as [[] [] [] [] [] [] [] []]; reflexivity. Qed.

Lemma upper_idempotent (s : string) : upper (upper s) = upper s.
Proof.
  induction s as [|c s IH]; [done|]. simpl. by rewrite upper_ascii_idempotent, IH.
Qed.

(** X8.  The case of a frame's format tag does not matter: in both
    widgets a frame is treated exactly as the same frame with its tag
    in upper case, and a tag's upper-case form is reached in one step. *)
Theorem format_tag_case_is_ignored (size : Z * Z) (colorfmt : string) (pixels : bytes) :
  upper (upper colorfmt) = upper colorfmt /\
  ZBarThread.greyscale (mkTexture size (upper colorfmt) pixels)
  = ZBarThread.greyscale (mkTexture size colorfmt pixels) /\
  forall (platform : string) (Decoder : Type)
         (decode : Decoder -> PIL.Image -> list pyzbar.ZBarSymbol ->
                   result (list pyzbar.Decoded) * Decoder)
         code_types d,
    ZBarSync._detect_qrcode_frame platform decode
      (mkTexture size (upper colorfmt) pixels) code_types d
    = ZBarSync._detect_qrcode_frame platform decode
        (mkTexture size colorfmt pixels) code_types d.
Proof.
  split; [apply upper_idempotent|]. split.
  - unfold ZBarThread.greyscale. simpl. by rewrite upper_idempotent.
  - intros platform Decoder decode code_types d.
    unfold ZBarSync._detect_qrcode_frame, ZBarSync.pil_mode. simpl.
    by rewrite upper_idempotent.
Qed.

End TagCase.

(** * Setting the camera widget up *)
Section CameraSetup.

Import Setup.

Implicit Types (xcamera camera : XCamera) (platform : string).

Lemma remove_shoot_button_nil xcamera :
  children xcamera = [] -> _remove_shoot_button xcamera = inl IndexError.
Proof. intros Hc. unfold _remove_shoot_button. by rewrite Hc. Qed.

Lemma remove_shoot_button_cons xcamera (c : nat) (rest : list nat) :
  children xcamera = c :: rest ->
  _remove_shoot_button xcamera = inr (mkXCamera rest (_camera xcamera)).
Proof.
  intros Hc. unfold _remove_shoot_button, remove_widget. rewrite Hc. simpl.
  case_bool_decide as Hin; [|exfalso; apply Hin, list_elem_of_here].
  simpl. by rewrite Nat.eqb_refl.
Qed.

Lemma autofocus_keeps_widget platform xcamera xcamera' :
  _enable_android_autofocus platform xcamera = inr xcamera' ->
  children xcamera' = children xcamera /\
  on_texture (_camera xcamera') = on_texture (_camera xcamera).
Proof.
  unfold _enable_android_autofocus, set_continuous_focus.
  destruct (negb (String.eqb platform "android")); [by intros [= <-]|].
  destruct (_android_camera (_camera xcamera)); [by intros [= <-]|done].
Qed.

(** X10.  [_remove_shoot_button] raises [IndexError] on a camera widget
    without children; otherwise it removes exactly the first child and
    leaves the others in their order, also when a later entry names the
    same widget, and it does not touch the core camera. *)
Theorem remove_shoot_button_drops_first_child xcamera :
  match children xcamera with
  | [] => _remove_shoot_button xcamera = inl IndexError
  | _ :: rest =>
      _remove_shoot_button xcamera = inr (mkXCamera rest (_camera xcamera)) /\
      S (length rest) = length (children xcamera)
  end.
Proof.
  destruct (children xcamera) as [|c rest] eqn:Hc.
  - by apply remove_shoot_button_nil.
  - split; [by apply (remove_shoot_button_cons _ c)|done].
Qed.

(** X11.  Off Android [_enable_android_autofocus] returns at once: it
    does not look for the Android camera and cannot fail.  On Android,
    with the Android camera present, it sets the [focus-mode] parameter
    to [continuous-video] and leaves every other parameter, the
    children and the bound callbacks as they were; applying it again
    changes nothing.  The two files' versions agree. *)
Theorem autofocus_sets_one_parameter_on_android platform xcamera :
  _enable_android_autofocus_sync platform xcamera
  = _enable_android_autofocus platform xcamera /\
  (platform <> "android"%string ->
   _enable_android_autofocus platform xcamera = inr xcamera) /\
  (forall params : gmap string string,
      platform = "android"%string ->
      _android_camera (_camera xcamera) = Some params ->
      exists params' : gmap string string,
        let xcamera' :=
          mkXCamera (children xcamera)
            (mkCoreCamera (Some params') (on_texture (_camera xcamera))) in
        _enable_android_autofocus platform xcamera = inr xcamera' /\
        params' !! "focus-mode"%string = Some "continuous-video"%string /\
        (forall k : string, k <> "focus-mode"%string -> params' !! k = params !! k) /\
        _enable_android_autofocus platform xcamera' = inr xcamera').
Proof.
  split; [reflexivity|]. split.
  - intros Hp. unfold _enable_android_autofocus.
    destruct (String.eqb_spec platform "android"); [done|done].
  - intros params -> Hcam. exists (setFocusMode "continuous-video" params).
    unfold _enable_android_autofocus, set_continuous_focus, setFocusMode.
    simpl. rewrite Hcam. split; [done|].
    split; [by rewrite lookup_insert_eq|].
    split; [intros k Hk; by rewrite lookup_insert_ne|].
    by rewrite insert_insert_eq.
Qed.

(** X12.  [__init__] of the threaded widget and [_setup] of the
    synchronous one do the same to the camera widget, in the same
    order.  With no child they raise [IndexError] before autofocus is
    configured and before [on_texture] is bound.  Otherwise the first
    child is removed, autofocus is applied to what is left, and when
    that succeeds exactly one [on_texture] callback is added; the
    threaded widget then starts in its initial state. *)
Theorem setup_steps_in_order {Scanner : Type} platform camera (sc : Scanner) :
  match children camera with
  | [] =>
      __init__ platform camera sc = inl IndexError /\
      _setup platform camera = inl IndexError
  | _ :: rest =>
      match _enable_android_autofocus platform (mkXCamera rest (_camera camera)) with
      | inl e =>
          __init__ platform camera sc = inl e /\ _setup platform camera = inl e
      | inr focused =>
          __init__ platform camera sc
          = inr (bind_on_texture focused, ZBarThread.init sc) /\
          _setup platform camera = inr (bind_on_texture focused) /\
          children (bind_on_texture focused) = rest /\
          on_texture (_camera (bind_on_texture focused))
          = S (on_texture (_camera camera))
      end
  end.
Proof.
  unfold __init__, _setup.
  destruct (children camera) as [|c rest] eqn:Hc.
  - by rewrite (remove_shoot_button_nil _ Hc).
  - rewrite (remove_shoot_button_cons _ c rest Hc).
    change (_enable_android_autofocus_sync platform ?x)
      with (_enable_android_autofocus platform x).
    destruct (_enable_android_autofocus platform _) as [e|focused] eqn:Hfocus; [done|].
    destruct (autofocus_keeps_widget _ _ _ Hfocus) as [Hchildren Hbound].
    simpl in *. by rewrite Hchildren, Hbound.
Qed.

End CameraSetup.

Lemma autofocus_sets_one_parameter_on_android_witness :
  let android := Setup.mkXCamera [7%nat]
                   (Setup.mkCoreCamera (Some {["focus-mode"%string := "auto"%string]}) 0) in
  let desktop := Setup.mkXCamera [7%nat] (Setup.mkCoreCamera None 0) in
  Setup._enable_android_autofocus "linux" desktop = inr desktop /\
  exists params' : gmap string string,
    Setup._enable_android_autofocus "android" android
    = inr (Setup.mkXCamera [7%nat] (Setup.mkCoreCamera (Some params') 0)) /\
    params' !! "focus-mode"%string = Some "continuous-video"%string.
Proof.
  intros android desktop. split.
  - apply (autofocus_sets_one_parameter_on_android "linux" desktop). discriminate.
  - destruct (autofocus_sets_one_parameter_on_android "android" android)
      as (_ & _ & Handroid).
    destruct (Handroid {["focus-mode"%string := "auto"%string]} eq_refl eq_refl)
      as (params' & Hrun & Hfocus & _).
    exists params'. split; [exact Hrun|exact Hfocus].
Defined.

(** * The import block *)
Section ImportBlock.

Import PILCompat.

Context {Impl : Type}.
Implicit Types (ns : @Namespace Impl).

(** X13.  After the import block both [frombytes] and [tobytes] are
    bound.  A namespace that has both is left as it is.  Otherwise both
    names are rebound, [frombytes] to [frombuffer] and [tobytes] to
    [tostring], also the one of the two that did exist; [frombuffer] and
    [tostring] themselves are never rebound.  The block fails exactly
    when one of the two names is missing and so is one of the two
    replacements. *)
Theorem import_block_binds_both_names ns :
  (forall ns', import_block ns = inr ns' ->
     is_Some (frombytes ns') /\ is_Some (tobytes ns') /\
     frombuffer ns' = frombuffer ns /\ tostring ns' = tostring ns) /\
  (is_Some (frombytes ns) -> is_Some (tobytes ns) -> import_block ns = inr ns) /\
  (forall ns', import_block ns = inr ns' ->
     frombytes ns = None \/ tobytes ns = None ->
     frombytes ns' = frombuffer ns /\ tobytes ns' = tostring ns) /\
  ((exists ns', import_block ns = inl ns') <->
   (frombytes ns = None \/ tobytes ns = None) /\
   (frombuffer ns = None \/ tostring ns = None)).
Proof.
  unfold import_block.
  destruct ns as [[fby|] [fbu|] [tby|] [tst|]]; simpl;
    (split; [intros ns' Heq; try discriminate; injection Heq as <-; by eauto|]);
    (split; [intros [? ?] [? ?]; by simplify_eq|]);
    (split; [intros ns' Heq Hmiss; try discriminate; injection Heq as <-;
             simpl; destruct Hmiss; by simplify_eq|]);
    (split; [intros [ns' Heq]; try discriminate; by eauto
            |intros [[?|?] [?|?]]; simplify_eq; by eauto]).
Qed.

End ImportBlock.

Lemma import_block_binds_both_names_witness :
  let ns := PILCompat.mkNamespace (Some "frombytes"%string) (Some "frombuffer"%string)
              None (Some "tostring"%string) in
  exists ns',
    PILCompat.import_block ns = inr ns' /\
    PILCompat.frombytes ns' = Some "frombuffer"%string /\
    PILCompat.tobytes ns' = Some "tostring"%string.
Proof.
  intros ns.
  destruct (import_block_binds_both_names ns) as (_ & _ & Hrebound & _).
  exists (PILCompat.mkNamespace (Some "frombuffer"%string) (Some "frombuffer"%string)
            (Some "tostring"%string) (Some "tostring"%string)).
  split; [reflexivity|]. apply Hrebound; [reflexivity|by right].
Defined.

(** * The demo label *)
Section DemoLabel.

Import ZBarThread.

Context {Scanner : Type}.
Variable scan : Scanner -> Z -> Z -> bytes ->
                result (Z * list zbar.Symbol) * Scanner.

(** X14.  After a detection cycle the demo label shows the payloads the
    scanner reported for that frame, in the scanner's order, separated
    by a comma and a space; it is empty when the scanner reported no
    symbol. *)
Theorem label_shows_payloads_of_cycle
    (w : @World Scanner) i t width height raw n zimage sc' :
  threads w !! i = Some t -> alive t = true ->
  greyscale (kwargs t) = Ok (width, height, raw) ->
  scan (scanner w) width height raw = (Ok (n, zimage), sc') ->
  (n = 0 ->
   Demo.label_text (symbols (step scan (ThreadRuns i) w)) = EmptyString) /\
  (n <> 0 ->
   Demo.label_text
     (symbols (run scan (ThreadRuns i :: replicate (S (length (clock w))) ClockTick) w))
   = String.concat ", " (map zbar.data zimage)).
Proof.
  intros Hi Ht Hg Hs. split.
  - intros ->. by destruct (cycle_clears scan w i t _ _ _ _ _ Hi Ht Hg Hs) as [-> _].
  - intros Hn.
    destruct (cycle_publishes scan w i t _ _ _ _ _ _ Hi Ht Hg Hs Hn) as [Hsym _].
    cbv zeta in Hsym. rewrite Hsym. unfold Demo.label_text.
    by rewrite map_map.
Qed.

End DemoLabel.

Lemma label_shows_payloads_of_cycle_witness :
  let w := ZBarThread.run TestDecoders.zbar_scan
             [ZBarThread.FrameArrives TestDecoders.white_rgba_1x1]
             (ZBarThread.init 0%nat) in
  Demo.label_text
    (ZBarThread.symbols
       (ZBarThread.run TestDecoders.zbar_scan
          [ZBarThread.ThreadRuns 0; ZBarThread.ClockTick] w))
  = "HELLO"%string.
Proof.
  intros w.
  destruct (label_shows_payloads_of_cycle TestDecoders.zbar_scan w 0%nat
              (ZBarThread.mkThread TestDecoders.white_rgba_1x1 true)
              1 1 [TestDecoders.px 255] 1 [zbar.mkSymbol 64 "HELLO" 1 0] 1%nat
              eq_refl eq_refl eq_refl eq_refl) as [_ Hsome].
  apply Hsome. discriminate.
Defined.

(** * The synchronous widget: what a frame can change *)
Section SyncFrame.

Import ZBarSync.

Variable platform : string.
Context {Decoder : Type}.
Variable decode : Decoder -> PIL.Image -> list pyzbar.ZBarSymbol ->
                  result (list pyzbar.Decoded) * Decoder.

(** X15.  In the synchronous widget a frame that Pillow rejects never
    reaches the decoder: [_on_texture] raises Pillow's exception and the
    decoder's state is as before.  A frame that goes through changes
    [symbols] and nothing else of the widget, and the decoder is asked
    for exactly the configured types. *)
Theorem sync_frame_changes_symbols_only (instance : Texture) (self : ZBarCam) (d : Decoder) :
  match PIL.frombytes (pil_mode platform (colorfmt instance)) (size instance)
          (pixels instance) with
  | Raise e => _on_texture platform decode instance self d = (Raise e, d)
  | Ok img =>
      (_on_texture platform decode instance self d).2
      = (decode d img (code_types self)).2 /\
      forall self',
        (_on_texture platform decode instance self d).1 = Ok self' ->
        resolution self' = resolution self /\
        code_types self' = code_types self /\
        play self' = play self /\
        exists codes,
          (decode d img (code_types self)).1 = Ok codes /\
          symbols self' = map symbol_of codes
  end.
Proof.
  unfold _on_texture, _detect_qrcode_frame. cbv zeta.
  destruct (PIL.frombytes _ _ _) as [img|e]; [|done].
  destruct (decode d img (code_types self)) as [[codes|e] d']; simpl.
  - split; [done|]. intros self' [= <-]. simpl.
    repeat split; try done. exists codes. by rewrite sync_collect_map.
  - split; [done|]. intros self' Heq. discriminate.
Qed.

End SyncFrame.
